(** * status-github-bot: bot_scripts/assign-to-bounty-awaiting-for-approval.js

    A shallow embedding of the label-event handler of the bot and the
    properties of its orchestration: filter, board and column resolution,
    card synchronisation, notification.

    The handler is asynchronous JavaScript that talks to three outside
    parties (the project-board API, the logger, the chat helper).  It is
    embedded as a computation that returns how the function body completed
    together with the ordered list of the effects it performed; the answers
    of the remote calls are read from a record of responses, so that every
    behaviour of the remote side, failures included, is a value a theorem
    can quantify over. *)

From Stdlib Require Import ZArith String List Bool.
From stdpp Require Import base option gmap strings pretty.
Import ListNotations.

Open Scope string_scope.
Open Scope Z_scope.

(** ** Data: the webhook payload *)

Record Label := { label_name : string }.

Record Issue := {
  issue_id : Z;
  issue_number : Z;
  issue_url : string;
  issue_html_url : string;
  issue_labels : list Label
}.

Record Owner := { login : string }.

Record Repository := { repo_owner : Owner; repo_name : string }.

Record Payload := {
  repository : Repository;
  issue : Issue;
  label : Label
}.

(** ** Data: what the project-board API returns *)

Record Project := { project_id : Z; project_name : string }.

Record Column := { column_id : Z; column_name : string }.

Record Card := { card_id : Z; card_url : string; card_content_url : string }.

(** ** Data: the configuration *)

(** Modelled from the spec: the configuration object.  Its loader
    (probot-config) and its defaults (lib/config) are not among the sources;
    section 3 (BoardConfig) and section 6 give its keys, all of them names.
    [bounty_project_board] is optional: the handler tests it. *)
Record ProjectBoardConfig := {
  cfg_name : string;                          (* name *)
  cfg_awaiting_approval_label_name : string;  (* awaiting-approval-label-name *)
  cfg_awaiting_approval_column_name : string; (* awaiting-approval-column-name *)
  cfg_bounty_label_name : string              (* bounty-label-name *)
}.

Record Config := {
  bounty_project_board : option ProjectBoardConfig; (* bounty-project-board *)
  slack_notification_room : string                  (* slack.notification.room *)
}.

(** ** Effects *)

Inductive LogLevel := LvlTrace | LvlDebug | LvlInfo | LvlError | LvlPlain.
(* LvlPlain is a direct call robot.log(...) *)

Inductive LogArg := ArgNum (n : Z) | ArgStr (s : string).

(** The handle of the chat client, as the connection callback receives it. *)
Record SlackClient := { slack_handle : Z }.

Inductive Effect :=
| EGetConfig (fileName : string)
| EGetOrgProjects (org : string) (state : string)
| EGetProjectColumns (projectId : Z)
| ECreateProjectCard (columnId : Z) (contentType : string) (contentId : Z)
| EGetProjectCards (columnId : Z)
| EDeleteProjectCard (cardId : Z)
| ELog (lvl : LogLevel) (msg : string) (args : list LogArg)
| ESendMessage (client : option SlackClient) (room : string) (message : string).

Definition Trace := list Effect.

(** A remote call resolves to a value or rejects; the rejection carries the
    text that a template literal renders for the error. *)
Inductive Response (A : Type) :=
| Resolved (a : A)
| Rejected (err : string).
Arguments Resolved {A} a.
Arguments Rejected {A} err.

(** The github client of a context: one answer per remote operation. *)
Record GitHub := {
  getConfig_response : Response (option Config);
  getOrgProjects : string -> string -> Response (list Project);
  getProjectColumns : Z -> Response (list Column);
  createProjectCard : Z -> string -> Z -> Response Card;
  getProjectCards : Z -> Response (list Card);
  deleteProjectCard : Z -> Response unit
}.

Record Context := {
  isBot : bool;
  github : GitHub;
  payload : Payload
}.

(** Process-wide state: the environment and the module variable slackClient. *)
Record Process := {
  env : gmap string string;
  slackClient : option SlackClient
}.

(** process.env.NAME: the value of the variable, undefined when it is unset. *)
Definition process_env (proc : Process) (name : string) : option string :=
  env proc !! name.
Arguments process_env : simpl never.

(** ** The computation type *)

(** How a block of statements completes. *)
Inductive Completion (A : Type) :=
| Normal (a : A)        (* control reaches the next statement *)
| Return                (* a return statement was executed *)
| Throw (err : string). (* an exception, or an awaited promise rejected *)
Arguments Normal {A} a.
Arguments Return {A}.
Arguments Throw {A} err.

Record M (A : Type) := mkM { completion : Completion A; trace : Trace }.
Arguments mkM {A} completion trace.
Arguments completion {A} m.
Arguments trace {A} m.

Definition ret {A} (a : A) : M A := mkM (Normal a) [].

Definition bind {A B} (m : M A) (k : A -> M B) : M B :=
  match m with
  | mkM (Normal a) t => match k a with mkM c t' => mkM c (t ++ t')%list end
  | mkM Return t => mkM Return t
  | mkM (Throw err) t => mkM (Throw err) t
  end.

#[global] Instance M_ret : MRet M := @ret.
#[global] Instance M_bind : MBind M := fun A B k m => bind m k.

Definition return_ {A} : M A := mkM Return [].

Definition emit (e : Effect) : M unit := mkM (Normal tt) [e].

Definition await {A} (r : Response A) : M A :=
  match r with
  | Resolved a => ret a
  | Rejected err => mkM (Throw err) []
  end.

(** try { m } catch (err) { h err } *)
Definition try_catch {A} (m : M A) (h : string -> M A) : M A :=
  match m with
  | mkM (Throw err) t => match h err with mkM c t' => mkM c (t ++ t')%list end
  | mkM (Normal a) t => mkM (Normal a) t
  | mkM Return t => mkM Return t
  end.

(** The call of an async function, awaited: its return is the caller's
    normal completion, its rejection is thrown at the await. *)
Definition await_call (m : M unit) : M unit :=
  match m with
  | mkM (Throw err) t => mkM (Throw err) t
  | mkM _ t => mkM (Normal tt) t
  end.

Definition remote {A} (e : Effect) (r : Response A) : M A :=
  emit e;; await r.

Definition log (lvl : LogLevel) (msg : string) (args : list LogArg) : M unit :=
  emit (ELog lvl msg args).

(** ** JavaScript values *)

(** Truthiness of process.env.NAME: undefined and the empty string are falsy. *)
Definition truthy_env (v : option string) : bool :=
  match v with
  | Some s => negb (String.eqb s "")
  | None => false
  end.

Definition truthy_string (s : string) : bool := negb (String.eqb s "").

(** The escape \n of a template literal. *)
Definition newline : string := String (Ascii.ascii_of_nat 10) EmptyString.

(** Rendering of a number inside a template literal. *)
Definition num (n : Z) : string := pretty n.
Arguments num : simpl never.

(** ** The collaborators that are not among the sources *)

(** Modelled from the spec: getProjectCardForIssue of lib/github-helpers,
    which is not among the sources: "resolve the existing card by listing
    cards in the column and matching one whose referenced issue URL equals
    issue.url". *)
Definition getProjectCardForIssue (gh : GitHub) (columnId : Z) (issueUrl : string)
  : M (option Card) :=
  cards ← remote (EGetProjectCards columnId) (getProjectCards gh columnId);
  ret (find (fun c => String.eqb (card_content_url c) issueUrl) cards).

(** Modelled from the spec: sendMessage of lib/slack, which is not among the
    sources: "send the composed message to the configured notification
    channel via a chat-client handle".  The call is recorded with the handle
    it is given; what the helper does with a null handle is its own affair. *)
Definition sendMessage (client : option SlackClient) (room message : string) : M unit :=
  emit (ESendMessage client room message).

(** ** The handler *)

(** ghprojectsPayload.data.find(p => p.name === projectBoardName) *)
Definition findProject (projectBoardName : string) (data : list Project) : option Project :=
  find (fun p => String.eqb (project_name p) projectBoardName) data.

(** ghcolumnsPayload.data.find(c => c.name === approvalColumnName) *)
Definition findColumn (approvalColumnName : string) (data : list Column) : option Column :=
  find (fun c => String.eqb (column_name c) approvalColumnName) data.

(** !!payload.issue.labels.find(l => l.name === bountyLabelName) *)
Definition isOfficialBounty (bountyLabelName : string) (labels : list Label) : bool :=
  match find (fun l => String.eqb (label_name l) bountyLabelName) labels with
  | Some _ => true
  | None => false
  end.

(** The value of the variable message when the last if statement is reached. *)
Definition message (assign official : bool)
  (approvalColumnName projectBoardName html_url : string) : string :=
  if assign then
    "Assigned issue to " ++ approvalColumnName ++ " in " ++ projectBoardName
    ++ " project" ++ newline ++ html_url
  else if official then
    html_url ++ " has been approved as an official bounty!"
  else
    "Unassigned issue from " ++ approvalColumnName ++ " in " ++ projectBoardName
    ++ " project" ++ newline ++ html_url.
Arguments message : simpl never.

Definition assignIssueToBountyAwaitingForApproval
  (proc : Process) (context : Context) (assign : bool) : M unit :=
  let gh := github context in
  let payload := payload context in
  let ownerName := login (repo_owner (repository payload)) in
  let repoName := repo_name (repository payload) in
  config ← remote (EGetConfig "github-bot.yml") (getConfig_response gh);
  let projectBoardConfig :=
    match config with Some c => bounty_project_board c | None => None end in
  match config, projectBoardConfig with
  | Some config, Some projectBoardConfig =>
    let watchedLabelName := cfg_awaiting_approval_label_name projectBoardConfig in
    if negb (String.eqb (label_name (label payload)) watchedLabelName) then
      log LvlDebug ("assignIssueToBountyAwaitingForApproval - "
                       ++ label_name (label payload) ++ " doesn't match watched "
                       ++ watchedLabelName ++ " label. Ignoring") [];;
      return_
    else
    (if assign
        then log LvlPlain ("assignIssueToBountyAwaitingForApproval - Handling labeling of #"
                           ++ num (issue_number (issue payload)) ++ " with "
                           ++ label_name (label payload) ++ " on repo "
                           ++ ownerName ++ "/" ++ repoName) []
        else log LvlPlain ("assignIssueToBountyAwaitingForApproval - Handling unlabeling of #"
                           ++ num (issue_number (issue payload)) ++ " with "
                           ++ label_name (label payload) ++ " on repo "
                           ++ ownerName ++ "/" ++ repoName) []);;
    (* Fetch org projects.  The variable column starts as null and is
       assigned once, at the find over the columns; every other way out of
       the try statement is a return, so the statement completes normally
       exactly with the column found. *)
    let projectBoardName := cfg_name projectBoardConfig in
    let approvalColumnName := cfg_awaiting_approval_column_name projectBoardConfig in
    column ←
      try_catch
        (let orgName := ownerName in
         ghprojectsPayload ←
           remote (EGetOrgProjects orgName "open") (getOrgProjects gh orgName "open");
         match findProject projectBoardName ghprojectsPayload with
         | None =>
           log LvlError ("Couldn't find project " ++ projectBoardName
                            ++ " in " ++ orgName ++ " org") [];;
           return_
         | Some project =>
           log LvlDebug ("Fetched " ++ project_name project ++ " project ("
                            ++ num (project_id project) ++ ")") [];;
           try_catch
             (ghcolumnsPayload ←
                remote (EGetProjectColumns (project_id project))
                       (getProjectColumns gh (project_id project));
              match findColumn approvalColumnName ghcolumnsPayload with
              | None =>
                log LvlError ("Couldn't find " ++ approvalColumnName
                                 ++ " column in project " ++ project_name project) [];;
                return_
              | Some column =>
                log LvlDebug ("Fetched " ++ column_name column ++ " column ("
                                 ++ num (column_id column) ++ ")") [];;
                ret column
              end)
             (fun err =>
              log LvlError ("Couldn't fetch the github columns for project: " ++ err)
                     [ArgStr ownerName; ArgStr repoName; ArgNum (project_id project)];;
              return_)
         end)
        (fun err =>
         log LvlError ("Couldn't fetch the github projects for repo: " ++ err)
                [ArgStr ownerName; ArgStr repoName];;
         return_);
    let bountyLabelName := cfg_bounty_label_name projectBoardConfig in
    let isOfficialBounty :=
      isOfficialBounty bountyLabelName (issue_labels (issue payload)) in
    (if truthy_env (process_env proc "DRY_RUN") then
          if assign
          then log LvlInfo "Would have created card for issue"
                   [ArgNum (column_id column); ArgNum (issue_id (issue payload))]
          else log LvlInfo "Would have deleted card for issue"
                   [ArgNum (column_id column); ArgNum (issue_id (issue payload))]
        else
          if assign then
            try_catch
              (* Create project card for the issue in the column *)
              (ghcard ←
                 remote (ECreateProjectCard (column_id column) "Issue"
                                            (issue_id (issue payload)))
                        (createProjectCard gh (column_id column) "Issue"
                                           (issue_id (issue payload)));
               log LvlPlain ("Created card: " ++ card_url ghcard)
                   [ArgNum (card_id ghcard)])
              (fun err =>
               log LvlError ("Couldn't create project card for the issue: " ++ err)
                   [ArgNum (column_id column); ArgNum (issue_id (issue payload))])
          else
            try_catch
              (ghcard ← getProjectCardForIssue gh (column_id column)
                                                   (issue_url (issue payload));
               match ghcard with
               | Some ghcard =>
                 remote (EDeleteProjectCard (card_id ghcard))
                        (deleteProjectCard gh (card_id ghcard));;
                 log LvlPlain ("Deleted card: " ++ card_url ghcard)
                     [ArgNum (card_id ghcard)]
               | None => ret tt
               end)
              (fun err =>
               log LvlError ("Couldn't delete project card for the issue: " ++ err)
                   [ArgNum (column_id column); ArgNum (issue_id (issue payload))]));;
    (* Send message to Slack *)
    let message :=
      message assign isOfficialBounty approvalColumnName projectBoardName
              (issue_html_url (issue payload)) in
    if truthy_string message
       && negb (truthy_env (process_env proc "DRY_RUN_BOUNTY_APPROVAL")) then
      sendMessage (slackClient proc) (slack_notification_room config) message
    else ret tt
  | _, _ => return_
  end.

(** ** The exported registration *)

(** The connection callback: Slack(robot, (slack) => { ... }). *)
Definition slack_connected (proc : Process) (slack : SlackClient) : Process * Trace :=
  ({| env := env proc; slackClient := Some slack |},
   [ELog LvlTrace "Connected, assigned slackClient" []]).

Inductive WebhookEvent := issues_labeled | issues_unlabeled.

(** The two listeners registered with robot.on. *)
Definition on_issues_labeled (proc : Process) (context : Context) : M unit :=
  (* Make sure we don't listen to our own messages *)
  if isBot context then return_
  else await_call (assignIssueToBountyAwaitingForApproval proc context true).

Definition on_issues_unlabeled (proc : Process) (context : Context) : M unit :=
  if isBot context then return_
  else await_call (assignIssueToBountyAwaitingForApproval proc context false).

Definition dispatch (proc : Process) (ev : WebhookEvent) (context : Context) : M unit :=
  match ev with
  | issues_labeled => on_issues_labeled proc context
  | issues_unlabeled => on_issues_unlabeled proc context
  end.

(** ** Observations on a trace *)

Definition is_send (e : Effect) : bool :=
  match e with ESendMessage _ _ _ => true | _ => false end.

Definition is_board_call (e : Effect) : bool :=
  match e with
  | EGetOrgProjects _ _ | EGetProjectColumns _ | ECreateProjectCard _ _ _
  | EGetProjectCards _ | EDeleteProjectCard _ => true
  | _ => false
  end.

Definition is_column_fetch (e : Effect) : bool :=
  match e with EGetProjectColumns _ => true | _ => false end.

Definition is_card_call (e : Effect) : bool :=
  match e with
  | ECreateProjectCard _ _ _ | EGetProjectCards _ | EDeleteProjectCard _ => true
  | _ => false
  end.

Definition is_card_mutation (e : Effect) : bool :=
  match e with
  | ECreateProjectCard _ _ _ | EDeleteProjectCard _ => true
  | _ => false
  end.

Definition is_error_log (e : Effect) : bool :=
  match e with ELog LvlError _ _ => true | _ => false end.

(** The messages handed to the chat helper, the remote project-board calls
    and the error entries of a run, each in order. *)
Definition sends (t : Trace) : Trace := filter is_send t.
Definition board_calls (t : Trace) : Trace := filter is_board_call t.
Definition error_logs (t : Trace) : Trace := filter is_error_log t.

(** A flag of the environment is set when its value is truthy. *)
Definition flag (proc : Process) (name : string) : bool :=
  truthy_env (process_env proc name).

(** ** A sample delivery

    Issue 42 of org/proj is labelled; the organisation has two boards named
    alike and the board has two columns named alike. *)
Module Sample.

Definition pbc : ProjectBoardConfig := {|
  cfg_name := "Status SOB Swarm";
  cfg_awaiting_approval_label_name := "bounty-awaiting-approval";
  cfg_awaiting_approval_column_name := "bounty-awaiting-approval";
  cfg_bounty_label_name := "bounty"
|}.

Definition config : Config := {|
  bounty_project_board := Some pbc;
  slack_notification_room := "status-probot"
|}.

Definition the_issue (labels : list Label) : Issue := {|
  issue_id := 1001;
  issue_number := 42;
  issue_url := "https://api.github.com/repos/org/proj/issues/42";
  issue_html_url := "https://github.com/org/proj/issues/42";
  issue_labels := labels
|}.

Definition the_payload (changed : string) (labels : list Label) : Payload := {|
  repository := {| repo_owner := {| login := "org" |}; repo_name := "proj" |};
  issue := the_issue labels;
  label := {| label_name := changed |}
|}.

Definition boards : list Project :=
  [ {| project_id := 3; project_name := "Other" |};
    {| project_id := 5; project_name := "Status SOB Swarm" |};
    {| project_id := 6; project_name := "Status SOB Swarm" |} ].

Definition columns : list Column :=
  [ {| column_id := 70; column_name := "done" |};
    {| column_id := 71; column_name := "bounty-awaiting-approval" |};
    {| column_id := 72; column_name := "bounty-awaiting-approval" |} ].

Definition a_card : Card := {|
  card_id := 900;
  card_url := "https://api.github.com/projects/columns/cards/900";
  card_content_url := "https://api.github.com/repos/org/proj/issues/42"
|}.

(** A remote side on which everything succeeds, of which single answers
    are replaced below. *)
Definition gh_ok (cards : list Card) : GitHub := {|
  getConfig_response := Resolved (Some config);
  getOrgProjects := fun _ _ => Resolved boards;
  getProjectColumns := fun _ => Resolved columns;
  createProjectCard := fun _ _ _ => Resolved a_card;
  getProjectCards := fun _ => Resolved cards;
  deleteProjectCard := fun _ => Resolved tt
|}.

Definition gh_create_fails : GitHub := {|
  getConfig_response := Resolved (Some config);
  getOrgProjects := fun _ _ => Resolved boards;
  getProjectColumns := fun _ => Resolved columns;
  createProjectCard := fun _ _ _ => Rejected "HttpError: Validation Failed";
  getProjectCards := fun _ => Resolved [];
  deleteProjectCard := fun _ => Resolved tt
|}.

Definition gh_no_board : GitHub := {|
  getConfig_response := Resolved (Some config);
  getOrgProjects := fun _ _ => Resolved [ {| project_id := 3; project_name := "Other" |} ];
  getProjectColumns := fun _ => Resolved columns;
  createProjectCard := fun _ _ _ => Resolved a_card;
  getProjectCards := fun _ => Resolved [];
  deleteProjectCard := fun _ => Resolved tt
|}.

Definition ctx (gh : GitHub) (changed : string) (labels : list Label) : Context :=
  {| isBot := false; github := gh; payload := the_payload changed labels |}.

Definition bot_ctx (gh : GitHub) : Context :=
  {| isBot := true; github := gh; payload := the_payload "bounty-awaiting-approval" [] |}.

Definition slack : SlackClient := {| slack_handle := 1 |}.

Definition proc (vars : list (string * string)) : Process :=
  {| env := list_to_map vars; slackClient := Some slack |}.

End Sample.

(** ** When an event gets through

    The event is not the bot's own, the configuration has a board section,
    the changed label is the watched one, and both lookups succeed: the
    board list holds [project] as its first board of the configured name and
    the column list of that board holds [column] as its first column of the
    configured name. *)
Definition resolves (context : Context) (config : Config) (pbc : ProjectBoardConfig)
  (project : Project) (column : Column) : Prop :=
  isBot context = false /\
  getConfig_response (github context) = Resolved (Some config) /\
  bounty_project_board config = Some pbc /\
  label_name (label (payload context)) = cfg_awaiting_approval_label_name pbc /\
  (exists data,
     getOrgProjects (github context)
       (login (repo_owner (repository (payload context)))) "open" = Resolved data /\
     findProject (cfg_name pbc) data = Some project) /\
  (exists data,
     getProjectColumns (github context) (project_id project) = Resolved data /\
     findColumn (cfg_awaiting_approval_column_name pbc) data = Some column).

Definition assign_of (ev : WebhookEvent) : bool :=
  match ev with issues_labeled => true | issues_unlabeled => false end.

(** The context of the same delivery with another label set on the issue. *)
Definition with_labels (context : Context) (labels : list Label) : Context :=
  let p := payload context in
  let i := issue p in
  {| isBot := isBot context;
     github := github context;
     payload := {| repository := repository p;
                   issue := {| issue_id := issue_id i;
                               issue_number := issue_number i;
                               issue_url := issue_url i;
                               issue_html_url := issue_html_url i;
                               issue_labels := labels |};
                   label := label p |} |}.

(** What a remote call is aimed at: a column fetch at [project], a card
    creation or card listing at [column]. *)
Definition targets (project : Project) (column : Column) (e : Effect) : Prop :=
  match e with
  | EGetProjectColumns pid => pid = project_id project
  | ECreateProjectCard col _ _ | EGetProjectCards col => col = column_id column
  | _ => True
  end.

(** ** Further observations *)

(** The effect with the chat handle of a send replaced. *)
Definition set_client (client : option SlackClient) (e : Effect) : Effect :=
  match e with
  | ESendMessage _ room text => ESendMessage client room text
  | _ => e
  end.

(** What the arguments of a remote call are taken from: the configuration
    file name is fixed, the board list is asked for the owner of the
    repository and for open boards, a card is created for the issue of the
    payload with content type Issue. *)
Definition well_addressed (context : Context) (e : Effect) : Prop :=
  match e with
  | EGetConfig file => file = "github-bot.yml"
  | EGetOrgProjects org state =>
      org = login (repo_owner (repository (payload context))) /\ state = "open"
  | ECreateProjectCard _ contentType contentId =>
      contentType = "Issue" /\ contentId = issue_id (issue (payload context))
  | _ => True
  end.

Definition is_create (e : Effect) : bool :=
  match e with ECreateProjectCard _ _ _ => true | _ => false end.

Definition is_list_or_delete (e : Effect) : bool :=
  match e with EGetProjectCards _ | EDeleteProjectCard _ => true | _ => false end.

(** The shapes the sequence of project-board calls of one delivery can
    take: the board list, then the columns of one board, then either one
    card creation, or one card listing and at most one deletion. *)
Definition follows_protocol (calls : Trace) : bool :=
  match calls with
  | [] => true
  | [EGetOrgProjects _ _] => true
  | [EGetOrgProjects _ _; EGetProjectColumns _] => true
  | [EGetOrgProjects _ _; EGetProjectColumns _; ECreateProjectCard _ _ _] => true
  | [EGetOrgProjects _ _; EGetProjectColumns _; EGetProjectCards _] => true
  | [EGetOrgProjects _ _; EGetProjectColumns _; EGetProjectCards _;
     EDeleteProjectCard _] => true
  | _ => false
  end.

(** ** Remote sides that fail

    The sample remote side with the answers of the board fetch, the column
    fetch, the card listing and the card deletion given, and the one with
    the answer of the configuration load given. *)
Module Faults.

Definition gh (projects : Response (list Project)) (columns : Response (list Column))
  (cards : Response (list Card)) (deleted : Response unit) : GitHub := {|
  getConfig_response := Resolved (Some Sample.config);
  getOrgProjects := fun _ _ => projects;
  getProjectColumns := fun _ => columns;
  createProjectCard := fun _ _ _ => Resolved Sample.a_card;
  getProjectCards := fun _ => cards;
  deleteProjectCard := fun _ => deleted
|}.

Definition gh_config (loaded : Response (option Config)) : GitHub := {|
  getConfig_response := loaded;
  getOrgProjects := fun _ _ => Resolved Sample.boards;
  getProjectColumns := fun _ => Resolved Sample.columns;
  createProjectCard := fun _ _ _ => Resolved Sample.a_card;
  getProjectCards := fun _ => Resolved [];
  deleteProjectCard := fun _ => Resolved tt
|}.



End Faults.

(** ** Proof support *)

Ltac unfold_handler :=
  unfold dispatch, on_issues_labeled, on_issues_unlabeled,
    assignIssueToBountyAwaitingForApproval, getProjectCardForIssue,
    sendMessage, remote, log, emit, await_call, try_catch, return_, await,
    mbind, M_bind, bind, ret, flag in *.

Ltac use_resolves H :=
  let Hbot := fresh "Hbot" in
  let Hcfg := fresh "Hcfg" in
  let Hpbc := fresh "Hpbc" in
  let Hlbl := fresh "Hlbl" in
  let Hprj := fresh "Hprj" in
  let Hfp := fresh "Hfp" in
  let Hcol := fresh "Hcol" in
  let Hfc := fresh "Hfc" in
  destruct H as (Hbot & Hcfg & Hpbc & Hlbl & (? & Hprj & Hfp) & (? & Hcol & Hfc));
  unfold_handler;
  rewrite Hbot, Hcfg; simpl; rewrite Hpbc, Hlbl, String.eqb_refl; simpl.

(** Runs the resolver part of a delivery that gets through. *)
Ltac run_resolver H :=
  use_resolves H;
  match goal with
  | Hprj : getOrgProjects _ _ _ = Resolved _,
    Hfp : findProject _ _ = Some _,
    Hcol : getProjectColumns _ _ = Resolved _,
    Hfc : findColumn _ _ = Some _ |- _ =>
    repeat (first [rewrite Hprj | rewrite Hfp | rewrite Hcol | rewrite Hfc]; simpl)
  end.

(** Case analysis on the answers of the card calls left in the goal. *)
Ltac case_card_calls :=
  repeat (simpl; match goal with
    | |- context [createProjectCard ?g ?c ?t ?i] => destruct (createProjectCard g c t i)
    | |- context [getProjectCards ?g ?c] => destruct (getProjectCards g c)
    | |- context [match find ?f ?l with _ => _ end] => destruct (find f l)
    | |- context [deleteProjectCard ?g ?c] => destruct (deleteProjectCard g c)
    end); simpl.

(** The composed message is never the empty string. *)
Lemma message_truthy assign official col board url :
  truthy_string (message assign official col board url) = true.
Proof.
  unfold message, truthy_string.
  destruct assign; [reflexivity|].
  destruct official; [|reflexivity].
  destruct url; reflexivity.
Qed.

Lemma find_none_of_forall {A} (f : A -> bool) (l : list A) :
  Forall (fun x => f x = false) l -> find f l = None.
Proof.
  induction 1 as [|x l Hx _ IH]; simpl; [reflexivity|].
  rewrite Hx. exact IH.
Qed.

Lemma find_first {A} (f : A -> bool) (pre post : list A) (x : A) :
  Forall (fun y => f y = false) pre -> f x = true ->
  find f (pre ++ x :: post) = Some x.
Proof.
  induction 1 as [|y pre Hy _ IH]; simpl; intros Hx.
  - rewrite Hx. reflexivity.
  - rewrite Hy. apply IH, Hx.
Qed.

Lemma isOfficialBounty_spec name labels :
  isOfficialBounty name labels = true <-> In name (map label_name labels).
Proof.
  unfold isOfficialBounty. induction labels as [|l labels IH]; simpl.
  - split; [discriminate | tauto].
  - destruct (String.eqb (label_name l) name) eqn:E.
    + apply String.eqb_eq in E. split; auto.
    + apply String.eqb_neq in E. rewrite IH. split; [auto | intros [H|H]; [contradiction | exact H]].
Qed.

(** The sample delivery gets through on every remote side that answers the
    configuration and the two lookups as the sample does. *)
Lemma sample_resolves gh changed labels :
  getConfig_response gh = Resolved (Some Sample.config) ->
  changed = "bounty-awaiting-approval" ->
  getOrgProjects gh "org" "open" = Resolved Sample.boards ->
  getProjectColumns gh 5 = Resolved Sample.columns ->
  resolves (Sample.ctx gh changed labels) Sample.config Sample.pbc
    {| project_id := 5; project_name := "Status SOB Swarm" |}
    {| column_id := 71; column_name := "bounty-awaiting-approval" |}.
Proof.
  intros Hcfg -> Hprj Hcol. unfold resolves. simpl.
  repeat split; try assumption.
  - exists Sample.boards. split; [assumption | reflexivity].
  - exists Sample.columns. split; [assumption | reflexivity].
Defined.

(** ** Failure of the create-card call *)

(** C1 as stated does not hold: on the sample delivery whose create-card call
    is rejected, the error is logged and the "Assigned issue to ..." message
    is still sent. *)
Lemma create_failure_reaches_notifier :
  resolves (Sample.ctx Sample.gh_create_fails "bounty-awaiting-approval" [])
    Sample.config Sample.pbc
    {| project_id := 5; project_name := "Status SOB Swarm" |}
    {| column_id := 71; column_name := "bounty-awaiting-approval" |} /\
  createProjectCard Sample.gh_create_fails 71 "Issue" 1001
    = Rejected "HttpError: Validation Failed" /\
  trace (dispatch (Sample.proc []) issues_labeled
           (Sample.ctx Sample.gh_create_fails "bounty-awaiting-approval" []))
    = [EGetConfig "github-bot.yml";
       ELog LvlPlain
         "assignIssueToBountyAwaitingForApproval - Handling labeling of #42 with bounty-awaiting-approval on repo org/proj" [];
       EGetOrgProjects "org" "open";
       ELog LvlDebug "Fetched Status SOB Swarm project (5)" [];
       EGetProjectColumns 5;
       ELog LvlDebug "Fetched bounty-awaiting-approval column (71)" [];
       ECreateProjectCard 71 "Issue" 1001;
       ELog LvlError
         "Couldn't create project card for the issue: HttpError: Validation Failed"
         [ArgNum 71; ArgNum 1001];
       ESendMessage (Some Sample.slack) "status-probot"
         ("Assigned issue to bounty-awaiting-approval in Status SOB Swarm project"
          ++ newline ++ "https://github.com/org/proj/issues/42")] /\
  sends (trace (dispatch (Sample.proc []) issues_labeled
                  (Sample.ctx Sample.gh_create_fails "bounty-awaiting-approval" [])))
    <> [].
Proof.
  split; [apply sample_resolves; reflexivity|].
  split; [reflexivity|].
  split; [vm_compute; reflexivity|].
  vm_compute. discriminate.
Qed.

(** C1, as the handler has it.  For every assign event that passes the filter
    and the board and column resolution, with DRY_RUN unset: if the remote
    create-card call fails, the failure is logged as an error with the
    column id and the issue id, the call is made once and not repeated, and
    the handling goes on to the notification step and completes normally.
    The "Assigned issue to ..." message is handed to the chat helper unless
    DRY_RUN_BOUNTY_APPROVAL is set. *)
Theorem create_failure_is_logged_and_notified :
  forall proc context config pbc project column err,
    resolves context config pbc project column ->
    flag proc "DRY_RUN" = false ->
    createProjectCard (github context) (column_id column) "Issue"
      (issue_id (issue (payload context))) = Rejected err ->
    let r := dispatch proc issues_labeled context in
    completion r = Normal tt /\
    board_calls (trace r)
      = [EGetOrgProjects (login (repo_owner (repository (payload context)))) "open";
         EGetProjectColumns (project_id project);
         ECreateProjectCard (column_id column) "Issue"
           (issue_id (issue (payload context)))] /\
    error_logs (trace r)
      = [ELog LvlError ("Couldn't create project card for the issue: " ++ err)
           [ArgNum (column_id column); ArgNum (issue_id (issue (payload context)))]] /\
    sends (trace r)
      = if flag proc "DRY_RUN_BOUNTY_APPROVAL" then []
        else [ESendMessage (slackClient proc) (slack_notification_room config)
                ("Assigned issue to " ++ cfg_awaiting_approval_column_name pbc
                 ++ " in " ++ cfg_name pbc ++ " project" ++ newline
                 ++ issue_html_url (issue (payload context)))].
Proof.
  intros proc context config pbc project column err H Hdry Hcreate r. subst r.
  run_resolver H.
  rewrite Hdry, Hcreate, ?message_truthy. simpl.
  destruct (truthy_env (process_env proc "DRY_RUN_BOUNTY_APPROVAL")); simpl;
    repeat split; reflexivity.
Qed.

Lemma create_failure_is_logged_and_notified_witness :
  flag (Sample.proc []) "DRY_RUN" = false /\
  error_logs (trace (dispatch (Sample.proc []) issues_labeled
                       (Sample.ctx Sample.gh_create_fails "bounty-awaiting-approval" [])))
    = [ELog LvlError
         ("Couldn't create project card for the issue: " ++ "HttpError: Validation Failed")
         [ArgNum 71; ArgNum 1001]].
Proof.
  split; [vm_compute; reflexivity|].
  apply (create_failure_is_logged_and_notified (Sample.proc [])
           (Sample.ctx Sample.gh_create_fails "bounty-awaiting-approval" [])
           Sample.config Sample.pbc
           {| project_id := 5; project_name := "Status SOB Swarm" |}
           {| column_id := 71; column_name := "bounty-awaiting-approval" |}
           "HttpError: Validation Failed").
  - apply sample_resolves; reflexivity.
  - vm_compute; reflexivity.
  - reflexivity.
Defined.

(** ** The dry-run-for-approval flag *)

(** C2 as stated does not hold: with DRY_RUN_BOUNTY_APPROVAL set, the sample
    assign event and the sample unassign event on an issue without the
    bounty label both run to the end, and neither composed message is sent. *)
Lemma approval_dry_run_drops_assign_and_unassign_messages :
  flag (Sample.proc [("DRY_RUN_BOUNTY_APPROVAL", "true")]) "DRY_RUN_BOUNTY_APPROVAL" = true /\
  resolves (Sample.ctx (Sample.gh_ok [Sample.a_card]) "bounty-awaiting-approval" [])
    Sample.config Sample.pbc
    {| project_id := 5; project_name := "Status SOB Swarm" |}
    {| column_id := 71; column_name := "bounty-awaiting-approval" |} /\
  isOfficialBounty "bounty" [] = false /\
  trace (dispatch (Sample.proc [("DRY_RUN_BOUNTY_APPROVAL", "true")]) issues_labeled
           (Sample.ctx (Sample.gh_ok [Sample.a_card]) "bounty-awaiting-approval" []))
    = [EGetConfig "github-bot.yml";
       ELog LvlPlain
         "assignIssueToBountyAwaitingForApproval - Handling labeling of #42 with bounty-awaiting-approval on repo org/proj" [];
       EGetOrgProjects "org" "open";
       ELog LvlDebug "Fetched Status SOB Swarm project (5)" [];
       EGetProjectColumns 5;
       ELog LvlDebug "Fetched bounty-awaiting-approval column (71)" [];
       ECreateProjectCard 71 "Issue" 1001;
       ELog LvlPlain "Created card: https://api.github.com/projects/columns/cards/900"
         [ArgNum 900]] /\
  trace (dispatch (Sample.proc [("DRY_RUN_BOUNTY_APPROVAL", "true")]) issues_unlabeled
           (Sample.ctx (Sample.gh_ok [Sample.a_card]) "bounty-awaiting-approval" []))
    = [EGetConfig "github-bot.yml";
       ELog LvlPlain
         "assignIssueToBountyAwaitingForApproval - Handling unlabeling of #42 with bounty-awaiting-approval on repo org/proj" [];
       EGetOrgProjects "org" "open";
       ELog LvlDebug "Fetched Status SOB Swarm project (5)" [];
       EGetProjectColumns 5;
       ELog LvlDebug "Fetched bounty-awaiting-approval column (71)" [];
       EGetProjectCards 71;
       EDeleteProjectCard 900;
       ELog LvlPlain "Deleted card: https://api.github.com/projects/columns/cards/900"
         [ArgNum 900]] /\
  ~ In (ESendMessage (Some Sample.slack) "status-probot"
          ("Assigned issue to bounty-awaiting-approval in Status SOB Swarm project"
           ++ newline ++ "https://github.com/org/proj/issues/42"))
       (trace (dispatch (Sample.proc [("DRY_RUN_BOUNTY_APPROVAL", "true")]) issues_labeled
                 (Sample.ctx (Sample.gh_ok [Sample.a_card]) "bounty-awaiting-approval" []))) /\
  ~ In (ESendMessage (Some Sample.slack) "status-probot"
          ("Unassigned issue from bounty-awaiting-approval in Status SOB Swarm project"
           ++ newline ++ "https://github.com/org/proj/issues/42"))
       (trace (dispatch (Sample.proc [("DRY_RUN_BOUNTY_APPROVAL", "true")]) issues_unlabeled
                 (Sample.ctx (Sample.gh_ok [Sample.a_card]) "bounty-awaiting-approval" []))).
Proof.
  split; [vm_compute; reflexivity|].
  split; [apply sample_resolves; reflexivity|].
  split; [reflexivity|].
  split; [vm_compute; reflexivity|].
  split; [vm_compute; reflexivity|].
  split; vm_compute; intuition discriminate.
Qed.

(** C2, as the handler has it.  When DRY_RUN_BOUNTY_APPROVAL is set, the one
    send of the handler is skipped whatever the event: no message is handed
    to the chat helper for an assign event, nor for an unassign event with
    or without the bounty label. *)
Theorem approval_dry_run_suppresses_every_message :
  forall proc ev context,
    flag proc "DRY_RUN_BOUNTY_APPROVAL" = true ->
    sends (trace (dispatch proc ev context)) = [].
Proof.
  intros proc ev context Hflag.
  unfold_handler. rewrite Hflag. cbn [negb].
  destruct (isBot context); [destruct ev; reflexivity|].
  destruct (getConfig_response (github context)) as [[config|]|err];
    [|destruct ev; reflexivity..].
  simpl. destruct (bounty_project_board config) as [pbc|]; [|destruct ev; reflexivity].
  destruct (negb _); [destruct ev; reflexivity|].
  rewrite !andb_false_r.
  destruct ev; simpl.
  all: destruct (getOrgProjects _ _ _) as [data|?]; simpl; [|reflexivity].
  all: destruct (findProject _ data) as [project|]; simpl; [|reflexivity].
  all: destruct (getProjectColumns _ _) as [cols|?]; simpl; [|reflexivity].
  all: destruct (findColumn _ cols) as [column|]; simpl; [|reflexivity].
  all: destruct (truthy_env (process_env proc "DRY_RUN")); simpl; [reflexivity|].
  - destruct (createProjectCard _ _ _ _); reflexivity.
  - destruct (getProjectCards _ _) as [cards|?]; simpl; [|reflexivity].
    destruct (find _ cards) as [card|]; simpl; [|reflexivity].
    destruct (deleteProjectCard _ _); reflexivity.
Qed.

Lemma approval_dry_run_suppresses_every_message_witness :
  flag (Sample.proc [("DRY_RUN_BOUNTY_APPROVAL", "true")]) "DRY_RUN_BOUNTY_APPROVAL" = true /\
  sends (trace (dispatch (Sample.proc [("DRY_RUN_BOUNTY_APPROVAL", "true")])
                  issues_unlabeled
                  (Sample.ctx (Sample.gh_ok [Sample.a_card]) "bounty-awaiting-approval"
                     [{| label_name := "bounty" |}]))) = [].
Proof.
  split; [vm_compute; reflexivity|].
  apply (approval_dry_run_suppresses_every_message
           (Sample.proc [("DRY_RUN_BOUNTY_APPROVAL", "true")])).
  vm_compute; reflexivity.
Defined.

(** ** The filter *)

(** C3.  For every event that the bot originated, and for every event whose
    changed label differs from the watched label name of the configuration,
    the run makes no remote project-board call (board fetch, column fetch,
    card create, list or delete) and sends no notification. *)
Theorem filtered_event_makes_no_call :
  forall proc ev context,
    (isBot context = true \/
     forall config pbc,
       getConfig_response (github context) = Resolved (Some config) ->
       bounty_project_board config = Some pbc ->
       label_name (label (payload context)) <> cfg_awaiting_approval_label_name pbc) ->
    board_calls (trace (dispatch proc ev context)) = [] /\
    sends (trace (dispatch proc ev context)) = [].
Proof.
  intros proc ev context [Hbot | Hne].
  - unfold dispatch, on_issues_labeled, on_issues_unlabeled.
    rewrite Hbot. destruct ev; split; reflexivity.
  - unfold_handler.
    destruct (isBot context); [destruct ev; split; reflexivity|].
    destruct (getConfig_response (github context)) as [[config|]|err] eqn:Hcfg;
      [|destruct ev; split; reflexivity..].
    simpl. destruct (bounty_project_board config) as [pbc|] eqn:Hpbc;
      [|destruct ev; split; reflexivity].
    specialize (Hne config pbc eq_refl Hpbc).
    apply String.eqb_neq in Hne. rewrite Hne.
    destruct ev; split; reflexivity.
Qed.

Lemma filtered_event_makes_no_call_witness :
  (board_calls (trace (dispatch (Sample.proc []) issues_labeled
                         (Sample.bot_ctx (Sample.gh_ok [])))) = [] /\
   sends (trace (dispatch (Sample.proc []) issues_labeled
                   (Sample.bot_ctx (Sample.gh_ok [])))) = []) /\
  (board_calls (trace (dispatch (Sample.proc []) issues_unlabeled
                         (Sample.ctx (Sample.gh_ok []) "bug" []))) = [] /\
   sends (trace (dispatch (Sample.proc []) issues_unlabeled
                   (Sample.ctx (Sample.gh_ok []) "bug" []))) = []).
Proof.
  split.
  - apply filtered_event_makes_no_call. left. reflexivity.
  - apply filtered_event_makes_no_call. right.
    intros config pbc Hcfg Hpbc. simpl in Hcfg.
    injection Hcfg as <-. simpl in Hpbc. injection Hpbc as <-.
    simpl. discriminate.
Defined.

(** ** The three messages *)

(** C4.  For every event that reaches the notifier, exactly one message is
    handed to the chat helper, for the configured room.  An assign event
    gives "Assigned issue to {column} in {board} project\n{url}"; an unassign
    event on an issue whose labels contain the configured bounty label name
    gives "{url} has been approved as an official bounty!"; an unassign event
    without that label gives "Unassigned issue from {column} in {board}
    project\n{url}".  The url is the html_url of the issue. *)
Theorem notifier_message :
  forall proc ev context config pbc project column,
    resolves context config pbc project column ->
    flag proc "DRY_RUN_BOUNTY_APPROVAL" = false ->
    let col := cfg_awaiting_approval_column_name pbc in
    let board := cfg_name pbc in
    let url := issue_html_url (issue (payload context)) in
    let labels := map label_name (issue_labels (issue (payload context))) in
    exists text,
      sends (trace (dispatch proc ev context))
        = [ESendMessage (slackClient proc) (slack_notification_room config) text] /\
      (ev = issues_labeled ->
       text = "Assigned issue to " ++ col ++ " in " ++ board ++ " project"
              ++ newline ++ url) /\
      (ev = issues_unlabeled -> In (cfg_bounty_label_name pbc) labels ->
       text = url ++ " has been approved as an official bounty!") /\
      (ev = issues_unlabeled -> ~ In (cfg_bounty_label_name pbc) labels ->
       text = "Unassigned issue from " ++ col ++ " in " ++ board ++ " project"
              ++ newline ++ url).
Proof.
  intros proc ev context config pbc project column H Hflag col board url labels.
  exists (message (assign_of ev)
            (isOfficialBounty (cfg_bounty_label_name pbc)
               (issue_labels (issue (payload context))))
            col board url).
  split.
  - run_resolver H.
    rewrite Hflag, ?message_truthy. simpl.
    destruct ev; simpl.
    + destruct (truthy_env (process_env proc "DRY_RUN")); simpl; [reflexivity|].
      destruct (createProjectCard _ _ _ _); reflexivity.
    + destruct (truthy_env (process_env proc "DRY_RUN")); simpl; [reflexivity|].
      destruct (getProjectCards _ _) as [cards|?]; simpl; [|reflexivity].
      destruct (find _ cards) as [card|]; simpl; [|reflexivity].
      destruct (deleteProjectCard _ _); reflexivity.
  - repeat split.
    + intros ->. reflexivity.
    + intros -> Hin. apply isOfficialBounty_spec in Hin.
      subst labels. simpl. rewrite Hin. reflexivity.
    + intros -> Hnin. simpl.
      destruct (isOfficialBounty _ _) eqn:E; [|reflexivity].
      apply isOfficialBounty_spec in E. contradiction.
Qed.

Lemma notifier_message_witness :
  exists text,
    sends (trace (dispatch (Sample.proc []) issues_unlabeled
                    (Sample.ctx (Sample.gh_ok [Sample.a_card]) "bounty-awaiting-approval"
                       [{| label_name := "bounty" |}])))
      = [ESendMessage (Some Sample.slack) "status-probot" text] /\
    text = "https://github.com/org/proj/issues/42 has been approved as an official bounty!".
Proof.
  destruct (notifier_message (Sample.proc []) issues_unlabeled
              (Sample.ctx (Sample.gh_ok [Sample.a_card]) "bounty-awaiting-approval"
                 [{| label_name := "bounty" |}])
              Sample.config Sample.pbc
              {| project_id := 5; project_name := "Status SOB Swarm" |}
              {| column_id := 71; column_name := "bounty-awaiting-approval" |})
    as (text & Hsend & _ & Happroved & _).
  - apply sample_resolves; reflexivity.
  - vm_compute; reflexivity.
  - exists text. split; [exact Hsend|].
    apply Happroved; [reflexivity|]. simpl. left. reflexivity.
Defined.

(** ** First match wins *)

(** C5.  When the fetched board list holds several boards of the configured
    name, the handler takes the first one in list order, and likewise the
    first column of the configured column name: the column fetch is made for
    that board, and every card creation or card listing names that column. *)
Theorem first_match_wins :
  forall proc ev context config pbc pre project post cpre column cpost,
    isBot context = false ->
    getConfig_response (github context) = Resolved (Some config) ->
    bounty_project_board config = Some pbc ->
    label_name (label (payload context)) = cfg_awaiting_approval_label_name pbc ->
    getOrgProjects (github context)
      (login (repo_owner (repository (payload context)))) "open"
      = Resolved (pre ++ project :: post)%list ->
    Forall (fun p => project_name p <> cfg_name pbc) pre ->
    project_name project = cfg_name pbc ->
    getProjectColumns (github context) (project_id project)
      = Resolved (cpre ++ column :: cpost)%list ->
    Forall (fun c => column_name c <> cfg_awaiting_approval_column_name pbc) cpre ->
    column_name column = cfg_awaiting_approval_column_name pbc ->
    findProject (cfg_name pbc) (pre ++ project :: post) = Some project /\
    findColumn (cfg_awaiting_approval_column_name pbc) (cpre ++ column :: cpost)
      = Some column /\
    filter is_column_fetch (trace (dispatch proc ev context))
      = [EGetProjectColumns (project_id project)] /\
    Forall (targets project column) (trace (dispatch proc ev context)).
Proof.
  intros proc ev context config pbc pre project post cpre column cpost
    Hbot Hcfg Hpbc Hlbl Hprj Hpre Hp Hcol Hcpre Hc.
  assert (Hfp : findProject (cfg_name pbc) (pre ++ project :: post) = Some project).
  { apply find_first.
    - eapply Forall_impl; [exact Hpre|]. intros q Hq. apply String.eqb_neq, Hq.
    - apply String.eqb_eq, Hp. }
  assert (Hfc : findColumn (cfg_awaiting_approval_column_name pbc)
                  (cpre ++ column :: cpost) = Some column).
  { apply find_first.
    - eapply Forall_impl; [exact Hcpre|]. intros q Hq. apply String.eqb_neq, Hq.
    - apply String.eqb_eq, Hc. }
  split; [exact Hfp|]. split; [exact Hfc|].
  assert (H : resolves context config pbc project column).
  { unfold resolves. eauto 10. }
  clear Hbot Hcfg Hpbc Hlbl Hprj Hcol Hfp Hfc.
  run_resolver H. rewrite ?message_truthy.
  destruct (negb (truthy_env (process_env proc "DRY_RUN_BOUNTY_APPROVAL")));
    destruct (truthy_env (process_env proc "DRY_RUN")); destruct ev; simpl.
  all: case_card_calls; (split; [reflexivity | repeat constructor]).
Qed.

Lemma first_match_wins_witness :
  findProject "Status SOB Swarm" Sample.boards
    = Some {| project_id := 5; project_name := "Status SOB Swarm" |} /\
  findColumn "bounty-awaiting-approval" Sample.columns
    = Some {| column_id := 71; column_name := "bounty-awaiting-approval" |} /\
  filter is_column_fetch
    (trace (dispatch (Sample.proc []) issues_labeled
              (Sample.ctx (Sample.gh_ok []) "bounty-awaiting-approval" [])))
    = [EGetProjectColumns 5] /\
  Forall (targets {| project_id := 5; project_name := "Status SOB Swarm" |}
                  {| column_id := 71; column_name := "bounty-awaiting-approval" |})
    (trace (dispatch (Sample.proc []) issues_labeled
              (Sample.ctx (Sample.gh_ok []) "bounty-awaiting-approval" []))).
Proof.
  apply (first_match_wins (Sample.proc []) issues_labeled
           (Sample.ctx (Sample.gh_ok []) "bounty-awaiting-approval" [])
           Sample.config Sample.pbc
           [{| project_id := 3; project_name := "Other" |}]
           {| project_id := 5; project_name := "Status SOB Swarm" |}
           [{| project_id := 6; project_name := "Status SOB Swarm" |}]
           [{| column_id := 70; column_name := "done" |}]
           {| column_id := 71; column_name := "bounty-awaiting-approval" |}
           [{| column_id := 72; column_name := "bounty-awaiting-approval" |}]);
    try reflexivity.
  - repeat constructor. simpl. discriminate.
  - repeat constructor. simpl. discriminate.
Defined.

(** ** No board of the configured name *)

(** C6.  When no board of the fetched list has the configured board name, the
    handling stops there: the board-list fetch is the only remote
    project-board call (no column fetch, no card call), the failure is logged,
    and no notification is sent. *)
Theorem no_board_aborts :
  forall proc ev context config pbc data,
    isBot context = false ->
    getConfig_response (github context) = Resolved (Some config) ->
    bounty_project_board config = Some pbc ->
    label_name (label (payload context)) = cfg_awaiting_approval_label_name pbc ->
    getOrgProjects (github context)
      (login (repo_owner (repository (payload context)))) "open" = Resolved data ->
    Forall (fun p => project_name p <> cfg_name pbc) data ->
    let r := dispatch proc ev context in
    board_calls (trace r)
      = [EGetOrgProjects (login (repo_owner (repository (payload context)))) "open"] /\
    sends (trace r) = [] /\
    error_logs (trace r)
      = [ELog LvlError ("Couldn't find project " ++ cfg_name pbc ++ " in "
                        ++ login (repo_owner (repository (payload context))) ++ " org") []] /\
    completion r = Normal tt.
Proof.
  intros proc ev context config pbc data Hbot Hcfg Hpbc Hlbl Hprj Hnone r. subst r.
  assert (Hfp : findProject (cfg_name pbc) data = None).
  { apply find_none_of_forall. eapply Forall_impl; [exact Hnone|].
    intros p Hp. apply String.eqb_neq, Hp. }
  unfold_handler. rewrite Hbot, Hcfg. simpl. rewrite Hpbc, Hlbl, String.eqb_refl. simpl.
  destruct ev; simpl; rewrite Hprj; simpl; rewrite Hfp; simpl; repeat split; reflexivity.
Qed.

Lemma no_board_aborts_witness :
  board_calls (trace (dispatch (Sample.proc []) issues_labeled
                        (Sample.ctx Sample.gh_no_board "bounty-awaiting-approval" [])))
    = [EGetOrgProjects "org" "open"] /\
  sends (trace (dispatch (Sample.proc []) issues_labeled
                  (Sample.ctx Sample.gh_no_board "bounty-awaiting-approval" []))) = [] /\
  error_logs (trace (dispatch (Sample.proc []) issues_labeled
                       (Sample.ctx Sample.gh_no_board "bounty-awaiting-approval" [])))
    = [ELog LvlError "Couldn't find project Status SOB Swarm in org org" []] /\
  completion (dispatch (Sample.proc []) issues_labeled
                (Sample.ctx Sample.gh_no_board "bounty-awaiting-approval" []))
    = Normal tt.
Proof.
  apply (no_board_aborts (Sample.proc []) issues_labeled
           (Sample.ctx Sample.gh_no_board "bounty-awaiting-approval" [])
           Sample.config Sample.pbc
           [{| project_id := 3; project_name := "Other" |}]);
    try reflexivity.
  repeat constructor. simpl. discriminate.
Defined.

(** ** The dry-run flag *)

(** C7.  While DRY_RUN is set, no run issues a card call (create, delete, or
    the listing that precedes a delete); a delivery that gets through the
    filter and the resolution logs "Would have created card for issue" on
    assign and "Would have deleted card for issue" on unassign, with the
    column id and the issue id. *)
Theorem dry_run_logs_instead_of_card_calls :
  forall proc ev context,
    flag proc "DRY_RUN" = true ->
    filter is_card_call (trace (dispatch proc ev context)) = [] /\
    forall config pbc project column,
      resolves context config pbc project column ->
      In (ELog LvlInfo
            (if assign_of ev then "Would have created card for issue"
             else "Would have deleted card for issue")
            [ArgNum (column_id column); ArgNum (issue_id (issue (payload context)))])
         (trace (dispatch proc ev context)).
Proof.
  intros proc ev context Hdry. split.
  - unfold_handler. rewrite Hdry.
    destruct (isBot context); [destruct ev; reflexivity|].
    destruct (getConfig_response (github context)) as [[config|]|err];
      [|destruct ev; reflexivity..].
    simpl. destruct (bounty_project_board config) as [pbc|]; [|destruct ev; reflexivity].
    destruct (negb _); [destruct ev; reflexivity|].
    destruct ev; simpl.
    all: destruct (getOrgProjects _ _ _) as [data|?]; simpl; [|reflexivity].
    all: destruct (findProject _ data) as [project|]; simpl; [|reflexivity].
    all: destruct (getProjectColumns _ _) as [cols|?]; simpl; [|reflexivity].
    all: destruct (findColumn _ cols) as [column|]; simpl; [|reflexivity].
    all: rewrite ?message_truthy; simpl.
    all: destruct (negb _); reflexivity.
  - intros config pbc project column H.
    run_resolver H. rewrite Hdry, ?message_truthy.
    destruct ev; simpl; destruct (negb _); simpl; tauto.
Qed.

Lemma dry_run_logs_instead_of_card_calls_witness :
  flag (Sample.proc [("DRY_RUN", "1")]) "DRY_RUN" = true /\
  filter is_card_call
    (trace (dispatch (Sample.proc [("DRY_RUN", "1")]) issues_unlabeled
              (Sample.ctx (Sample.gh_ok [Sample.a_card]) "bounty-awaiting-approval" [])))
    = [] /\
  In (ELog LvlInfo "Would have deleted card for issue" [ArgNum 71; ArgNum 1001])
     (trace (dispatch (Sample.proc [("DRY_RUN", "1")]) issues_unlabeled
               (Sample.ctx (Sample.gh_ok [Sample.a_card]) "bounty-awaiting-approval" []))).
Proof.
  split; [vm_compute; reflexivity|].
  destruct (dry_run_logs_instead_of_card_calls (Sample.proc [("DRY_RUN", "1")])
              issues_unlabeled
              (Sample.ctx (Sample.gh_ok [Sample.a_card]) "bounty-awaiting-approval" []))
    as [Hcalls Hlog].
  - vm_compute; reflexivity.
  - split; [exact Hcalls|].
    apply (Hlog Sample.config Sample.pbc
             {| project_id := 5; project_name := "Status SOB Swarm" |}
             {| column_id := 71; column_name := "bounty-awaiting-approval" |}).
    apply sample_resolves; reflexivity.
Defined.

(** ** Unassign without a card *)

(** C8.  For every unassign event that gets through, with DRY_RUN unset: when
    the cards of the resolved column hold no card whose content url is the
    url of the issue, no delete-card (nor create-card) call is issued, no
    error is logged, and the handler completes normally. *)
Theorem unassign_without_card_is_noop :
  forall proc context config pbc project column cards,
    resolves context config pbc project column ->
    flag proc "DRY_RUN" = false ->
    getProjectCards (github context) (column_id column) = Resolved cards ->
    Forall (fun c => card_content_url c <> issue_url (issue (payload context))) cards ->
    let r := dispatch proc issues_unlabeled context in
    filter is_card_mutation (trace r) = [] /\
    error_logs (trace r) = [] /\
    completion r = Normal tt /\
    board_calls (trace r)
      = [EGetOrgProjects (login (repo_owner (repository (payload context)))) "open";
         EGetProjectColumns (project_id project);
         EGetProjectCards (column_id column)].
Proof.
  intros proc context config pbc project column cards H Hdry Hcards Hnone r. subst r.
  assert (Hfind : find (fun c => String.eqb (card_content_url c)
                                   (issue_url (issue (payload context)))) cards = None).
  { apply find_none_of_forall. eapply Forall_impl; [exact Hnone|].
    intros c Hc. apply String.eqb_neq, Hc. }
  run_resolver H. rewrite Hdry, Hcards, ?message_truthy. simpl. rewrite Hfind. simpl.
  destruct (negb _); simpl; repeat split; reflexivity.
Qed.

Lemma unassign_without_card_is_noop_witness :
  filter is_card_mutation
    (trace (dispatch (Sample.proc []) issues_unlabeled
              (Sample.ctx (Sample.gh_ok []) "bounty-awaiting-approval" []))) = [] /\
  error_logs
    (trace (dispatch (Sample.proc []) issues_unlabeled
              (Sample.ctx (Sample.gh_ok []) "bounty-awaiting-approval" []))) = [] /\
  completion (dispatch (Sample.proc []) issues_unlabeled
                (Sample.ctx (Sample.gh_ok []) "bounty-awaiting-approval" [])) = Normal tt /\
  board_calls
    (trace (dispatch (Sample.proc []) issues_unlabeled
              (Sample.ctx (Sample.gh_ok []) "bounty-awaiting-approval" [])))
    = [EGetOrgProjects "org" "open"; EGetProjectColumns 5; EGetProjectCards 71].
Proof.
  apply (unassign_without_card_is_noop (Sample.proc [])
           (Sample.ctx (Sample.gh_ok []) "bounty-awaiting-approval" [])
           Sample.config Sample.pbc
           {| project_id := 5; project_name := "Status SOB Swarm" |}
           {| column_id := 71; column_name := "bounty-awaiting-approval" |} []).
  - apply sample_resolves; reflexivity.
  - vm_compute; reflexivity.
  - reflexivity.
  - constructor.
Defined.

(** ** Dry run and the notification *)

(** C9.  With DRY_RUN set and DRY_RUN_BOUNTY_APPROVAL unset, every delivery
    that gets through still hands its message to the chat helper; only the
    card calls are left out. *)
Theorem dry_run_still_notifies :
  forall proc ev context config pbc project column,
    resolves context config pbc project column ->
    flag proc "DRY_RUN" = true ->
    flag proc "DRY_RUN_BOUNTY_APPROVAL" = false ->
    sends (trace (dispatch proc ev context))
      = [ESendMessage (slackClient proc) (slack_notification_room config)
           (message (assign_of ev)
              (isOfficialBounty (cfg_bounty_label_name pbc)
                 (issue_labels (issue (payload context))))
              (cfg_awaiting_approval_column_name pbc) (cfg_name pbc)
              (issue_html_url (issue (payload context))))] /\
    filter is_card_call (trace (dispatch proc ev context)) = [].
Proof.
  intros proc ev context config pbc project column H Hdry Hflag.
  run_resolver H. rewrite Hdry, Hflag, ?message_truthy.
  destruct ev; simpl; split; reflexivity.
Qed.

Lemma dry_run_still_notifies_witness :
  sends (trace (dispatch (Sample.proc [("DRY_RUN", "1")]) issues_labeled
                  (Sample.ctx (Sample.gh_ok []) "bounty-awaiting-approval" [])))
    = [ESendMessage (Some Sample.slack) "status-probot"
         (message true false "bounty-awaiting-approval" "Status SOB Swarm"
            "https://github.com/org/proj/issues/42")] /\
  filter is_card_call
    (trace (dispatch (Sample.proc [("DRY_RUN", "1")]) issues_labeled
              (Sample.ctx (Sample.gh_ok []) "bounty-awaiting-approval" []))) = [].
Proof.
  apply (dry_run_still_notifies (Sample.proc [("DRY_RUN", "1")]) issues_labeled
           (Sample.ctx (Sample.gh_ok []) "bounty-awaiting-approval" [])
           Sample.config Sample.pbc
           {| project_id := 5; project_name := "Status SOB Swarm" |}
           {| column_id := 71; column_name := "bounty-awaiting-approval" |}).
  - apply sample_resolves; reflexivity.
  - vm_compute; reflexivity.
  - vm_compute; reflexivity.
Defined.

(** ** The assign message and the bounty label *)

(** C10.  Two assign events that differ only in the labels of the issue are
    handled alike, effect for effect, and the message of the assign branch
    is the same whether or not the issue counts as an official bounty. *)
Theorem assign_message_ignores_bounty_label :
  forall proc context labels1 labels2,
    dispatch proc issues_labeled (with_labels context labels1)
    = dispatch proc issues_labeled (with_labels context labels2)
    /\ forall official1 official2 col board url,
         message true official1 col board url = message true official2 col board url.
Proof.
  intros. split; [|reflexivity].
  unfold dispatch, on_issues_labeled, assignIssueToBountyAwaitingForApproval, with_labels.
  simpl. reflexivity.
Qed.

(** * Further properties of the handler *)

(** Case analysis on everything a run reads: the bot mark, the
    configuration, the label test, the two lookups, the two flags and the
    answers of the card calls. *)
Ltac case_run :=
  unfold_handler;
  repeat (simpl; rewrite ?message_truthy; match goal with
    | |- context [isBot ?c] => destruct (isBot c) eqn:?
    | |- context [getConfig_response ?g] =>
        destruct (getConfig_response g) as [[?|]|?] eqn:?
    | |- context [bounty_project_board ?c] => destruct (bounty_project_board c) eqn:?
    | |- context [String.eqb ?a ?b] => destruct (String.eqb a b) eqn:?
    | |- context [getOrgProjects ?g ?o ?s] => destruct (getOrgProjects g o s) eqn:?
    | |- context [findProject ?n ?d] => destruct (findProject n d) eqn:?
    | |- context [getProjectColumns ?g ?p] => destruct (getProjectColumns g p) eqn:?
    | |- context [findColumn ?n ?d] => destruct (findColumn n d) eqn:?
    | |- context [truthy_env ?v] => destruct (truthy_env v) eqn:?
    | |- context [createProjectCard ?g ?c ?t ?i] =>
        destruct (createProjectCard g c t i) eqn:?
    | |- context [getProjectCards ?g ?c] => destruct (getProjectCards g c) eqn:?
    | |- context [match find ?f ?l with _ => _ end] => destruct (find f l) eqn:?
    | |- context [deleteProjectCard ?g ?c] => destruct (deleteProjectCard g c) eqn:?
    end); simpl.


(** X2.  When the configuration is absent, or has no bounty-project-board
    section, the handler returns at once: the load of the configuration is
    the only effect, nothing is logged, and the listener completes. *)
Theorem missing_board_section_is_silent :
  forall proc ev context,
    isBot context = false ->
    (getConfig_response (github context) = Resolved None \/
     exists config,
       getConfig_response (github context) = Resolved (Some config) /\
       bounty_project_board config = None) ->
    dispatch proc ev context = mkM (Normal tt) [EGetConfig "github-bot.yml"].
Proof.
  intros proc ev context Hbot [Hcfg | (config & Hcfg & Hnone)];
    unfold_handler; rewrite Hbot, Hcfg; simpl; [|rewrite Hnone];
    destruct ev; reflexivity.
Qed.

Lemma missing_board_section_is_silent_witness :
  dispatch (Sample.proc []) issues_labeled
    (Sample.ctx (Faults.gh_config
                   (Resolved (Some {| bounty_project_board := None;
                                      slack_notification_room := "status-probot" |})))
       "bounty-awaiting-approval" [])
  = mkM (Normal tt) [EGetConfig "github-bot.yml"].
Proof.
  apply missing_board_section_is_silent; [reflexivity|].
  right. eexists. split; reflexivity.
Defined.


(** X4.  An event whose label is not the watched one costs the load of the
    configuration and one debug entry that names both labels; nothing is
    logged at another level and the listener completes. *)
Theorem label_mismatch_logs_debug_only :
  forall proc ev context config pbc,
    isBot context = false ->
    getConfig_response (github context) = Resolved (Some config) ->
    bounty_project_board config = Some pbc ->
    label_name (label (payload context)) <> cfg_awaiting_approval_label_name pbc ->
    dispatch proc ev context
    = mkM (Normal tt)
        [EGetConfig "github-bot.yml";
         ELog LvlDebug
           ("assignIssueToBountyAwaitingForApproval - "
            ++ label_name (label (payload context)) ++ " doesn't match watched "
            ++ cfg_awaiting_approval_label_name pbc ++ " label. Ignoring") []].
Proof.
  intros proc ev context config pbc Hbot Hcfg Hpbc Hne.
  apply String.eqb_neq in Hne.
  unfold_handler. rewrite Hbot, Hcfg. simpl. rewrite Hpbc, Hne.
  destruct ev; reflexivity.
Qed.

Lemma label_mismatch_logs_debug_only_witness :
  dispatch (Sample.proc []) issues_unlabeled (Sample.ctx (Sample.gh_ok []) "bug" [])
  = mkM (Normal tt)
      [EGetConfig "github-bot.yml";
       ELog LvlDebug
         "assignIssueToBountyAwaitingForApproval - bug doesn't match watched bounty-awaiting-approval label. Ignoring"
         []].
Proof.
  apply (label_mismatch_logs_debug_only (Sample.proc []) issues_unlabeled
           (Sample.ctx (Sample.gh_ok []) "bug" []) Sample.config Sample.pbc);
    try reflexivity.
  simpl. discriminate.
Defined.

(** The filter passed: the event is not the bot's, the configuration has a
    board section and the changed label is the watched one. *)
Ltac run_filter Hbot Hcfg Hpbc Hlbl :=
  unfold_handler; rewrite Hbot, Hcfg; simpl;
  rewrite Hpbc, Hlbl, String.eqb_refl; simpl.

(** X5.  When the board is found and none of its columns has the configured
    column name, the handling stops after the column fetch: no card call is
    made, one error entry names the column and the board, nothing is sent. *)
Theorem no_column_aborts :
  forall proc ev context config pbc boards project data,
    isBot context = false ->
    getConfig_response (github context) = Resolved (Some config) ->
    bounty_project_board config = Some pbc ->
    label_name (label (payload context)) = cfg_awaiting_approval_label_name pbc ->
    getOrgProjects (github context)
      (login (repo_owner (repository (payload context)))) "open" = Resolved boards ->
    findProject (cfg_name pbc) boards = Some project ->
    getProjectColumns (github context) (project_id project) = Resolved data ->
    Forall (fun c => column_name c <> cfg_awaiting_approval_column_name pbc) data ->
    let r := dispatch proc ev context in
    board_calls (trace r)
      = [EGetOrgProjects (login (repo_owner (repository (payload context)))) "open";
         EGetProjectColumns (project_id project)] /\
    error_logs (trace r)
      = [ELog LvlError ("Couldn't find " ++ cfg_awaiting_approval_column_name pbc
                        ++ " column in project " ++ project_name project) []] /\
    sends (trace r) = [] /\
    completion r = Normal tt.
Proof.
  intros proc ev context config pbc boards project data
    Hbot Hcfg Hpbc Hlbl Hprj Hfp Hcol Hnone r. subst r.
  assert (Hfc : findColumn (cfg_awaiting_approval_column_name pbc) data = None).
  { apply find_none_of_forall. eapply Forall_impl; [exact Hnone|].
    intros c Hc. apply String.eqb_neq, Hc. }
  run_filter Hbot Hcfg Hpbc Hlbl.
  destruct ev; simpl; rewrite Hprj; simpl; rewrite Hfp; simpl;
    rewrite Hcol; simpl; rewrite Hfc; simpl; repeat split; reflexivity.
Qed.

Lemma no_column_aborts_witness :
  board_calls
    (trace (dispatch (Sample.proc []) issues_labeled
              (Sample.ctx
                 (Faults.gh (Resolved Sample.boards)
                    (Resolved [{| column_id := 70; column_name := "done" |}])
                    (Resolved []) (Resolved tt))
                 "bounty-awaiting-approval" [])))
    = [EGetOrgProjects "org" "open"; EGetProjectColumns 5] /\
  error_logs
    (trace (dispatch (Sample.proc []) issues_labeled
              (Sample.ctx
                 (Faults.gh (Resolved Sample.boards)
                    (Resolved [{| column_id := 70; column_name := "done" |}])
                    (Resolved []) (Resolved tt))
                 "bounty-awaiting-approval" [])))
    = [ELog LvlError
         "Couldn't find bounty-awaiting-approval column in project Status SOB Swarm" []].
Proof.
  destruct (no_column_aborts (Sample.proc []) issues_labeled
              (Sample.ctx
                 (Faults.gh (Resolved Sample.boards)
                    (Resolved [{| column_id := 70; column_name := "done" |}])
                    (Resolved []) (Resolved tt))
                 "bounty-awaiting-approval" [])
              Sample.config Sample.pbc Sample.boards
              {| project_id := 5; project_name := "Status SOB Swarm" |}
              [{| column_id := 70; column_name := "done" |}])
    as (Hcalls & Hlog & _); try reflexivity.
  - repeat constructor. simpl. discriminate.
  - split; [exact Hcalls | exact Hlog].
Defined.

(** X6.  When the fetch of the board list is rejected, the handling stops
    there: the error is logged with the owner and the repository name, no
    other project-board call is made, nothing is sent, and the listener
    completes. *)
Theorem board_fetch_failure_aborts :
  forall proc ev context config pbc err,
    isBot context = false ->
    getConfig_response (github context) = Resolved (Some config) ->
    bounty_project_board config = Some pbc ->
    label_name (label (payload context)) = cfg_awaiting_approval_label_name pbc ->
    getOrgProjects (github context)
      (login (repo_owner (repository (payload context)))) "open" = Rejected err ->
    let r := dispatch proc ev context in
    board_calls (trace r)
      = [EGetOrgProjects (login (repo_owner (repository (payload context)))) "open"] /\
    error_logs (trace r)
      = [ELog LvlError ("Couldn't fetch the github projects for repo: " ++ err)
           [ArgStr (login (repo_owner (repository (payload context))));
            ArgStr (repo_name (repository (payload context)))]] /\
    sends (trace r) = [] /\
    completion r = Normal tt.
Proof.
  intros proc ev context config pbc err Hbot Hcfg Hpbc Hlbl Hprj r. subst r.
  run_filter Hbot Hcfg Hpbc Hlbl.
  destruct ev; simpl; rewrite Hprj; simpl; repeat split; reflexivity.
Qed.

Lemma board_fetch_failure_aborts_witness :
  error_logs
    (trace (dispatch (Sample.proc []) issues_unlabeled
              (Sample.ctx
                 (Faults.gh (Rejected "HttpError: Not Found") (Resolved Sample.columns)
                    (Resolved []) (Resolved tt))
                 "bounty-awaiting-approval" [])))
    = [ELog LvlError "Couldn't fetch the github projects for repo: HttpError: Not Found"
         [ArgStr "org"; ArgStr "proj"]] /\
  completion (dispatch (Sample.proc []) issues_unlabeled
                (Sample.ctx
                   (Faults.gh (Rejected "HttpError: Not Found") (Resolved Sample.columns)
                      (Resolved []) (Resolved tt))
                   "bounty-awaiting-approval" []))
    = Normal tt.
Proof.
  destruct (board_fetch_failure_aborts (Sample.proc []) issues_unlabeled
              (Sample.ctx
                 (Faults.gh (Rejected "HttpError: Not Found") (Resolved Sample.columns)
                    (Resolved []) (Resolved tt))
                 "bounty-awaiting-approval" [])
              Sample.config Sample.pbc "HttpError: Not Found")
    as (_ & Hlog & _ & Hdone); try reflexivity.
  split; [exact Hlog | exact Hdone].
Defined.

(** X7.  When the board is found and the fetch of its columns is rejected,
    the handling stops there: the error is logged with the owner, the
    repository name and the id of the board, no card call is made and
    nothing is sent. *)
Theorem column_fetch_failure_aborts :
  forall proc ev context config pbc boards project err,
    isBot context = false ->
    getConfig_response (github context) = Resolved (Some config) ->
    bounty_project_board config = Some pbc ->
    label_name (label (payload context)) = cfg_awaiting_approval_label_name pbc ->
    getOrgProjects (github context)
      (login (repo_owner (repository (payload context)))) "open" = Resolved boards ->
    findProject (cfg_name pbc) boards = Some project ->
    getProjectColumns (github context) (project_id project) = Rejected err ->
    let r := dispatch proc ev context in
    board_calls (trace r)
      = [EGetOrgProjects (login (repo_owner (repository (payload context)))) "open";
         EGetProjectColumns (project_id project)] /\
    error_logs (trace r)
      = [ELog LvlError ("Couldn't fetch the github columns for project: " ++ err)
           [ArgStr (login (repo_owner (repository (payload context))));
            ArgStr (repo_name (repository (payload context)));
            ArgNum (project_id project)]] /\
    sends (trace r) = [] /\
    completion r = Normal tt.
Proof.
  intros proc ev context config pbc boards project err
    Hbot Hcfg Hpbc Hlbl Hprj Hfp Hcol r. subst r.
  run_filter Hbot Hcfg Hpbc Hlbl.
  destruct ev; simpl; rewrite Hprj; simpl; rewrite Hfp; simpl;
    rewrite Hcol; simpl; repeat split; reflexivity.
Qed.

Lemma column_fetch_failure_aborts_witness :
  error_logs
    (trace (dispatch (Sample.proc []) issues_labeled
              (Sample.ctx
                 (Faults.gh (Resolved Sample.boards) (Rejected "HttpError: Gone")
                    (Resolved []) (Resolved tt))
                 "bounty-awaiting-approval" [])))
    = [ELog LvlError "Couldn't fetch the github columns for project: HttpError: Gone"
         [ArgStr "org"; ArgStr "proj"; ArgNum 5]] /\
  sends
    (trace (dispatch (Sample.proc []) issues_labeled
              (Sample.ctx
                 (Faults.gh (Resolved Sample.boards) (Rejected "HttpError: Gone")
                    (Resolved []) (Resolved tt))
                 "bounty-awaiting-approval" []))) = [].
Proof.
  destruct (column_fetch_failure_aborts (Sample.proc []) issues_labeled
              (Sample.ctx
                 (Faults.gh (Resolved Sample.boards) (Rejected "HttpError: Gone")
                    (Resolved []) (Resolved tt))
                 "bounty-awaiting-approval" [])
              Sample.config Sample.pbc Sample.boards
              {| project_id := 5; project_name := "Status SOB Swarm" |}
              "HttpError: Gone")
    as (_ & Hlog & Hsend & _); try reflexivity.
  split; [exact Hlog | exact Hsend].
Defined.

(** X8.  For an assign event that gets through, with DRY_RUN unset: when the
    create-card call succeeds, it is the last project-board call of the
    run, made for the resolved column with content type Issue and the id of
    the issue; the url and the id of the created card are logged and no
    error is. *)
Theorem create_success_logs_card :
  forall proc context config pbc project column card,
    resolves context config pbc project column ->
    flag proc "DRY_RUN" = false ->
    createProjectCard (github context) (column_id column) "Issue"
      (issue_id (issue (payload context))) = Resolved card ->
    let r := dispatch proc issues_labeled context in
    board_calls (trace r)
      = [EGetOrgProjects (login (repo_owner (repository (payload context)))) "open";
         EGetProjectColumns (project_id project);
         ECreateProjectCard (column_id column) "Issue"
           (issue_id (issue (payload context)))] /\
    In (ELog LvlPlain ("Created card: " ++ card_url card) [ArgNum (card_id card)])
       (trace r) /\
    error_logs (trace r) = [] /\
    completion r = Normal tt.
Proof.
  intros proc context config pbc project column card H Hdry Hcreate r. subst r.
  run_resolver H.
  rewrite Hdry, Hcreate, ?message_truthy. simpl.
  destruct (negb _); simpl; repeat split; try reflexivity; tauto.
Qed.

Lemma create_success_logs_card_witness :
  board_calls
    (trace (dispatch (Sample.proc []) issues_labeled
              (Sample.ctx (Sample.gh_ok []) "bounty-awaiting-approval" [])))
    = [EGetOrgProjects "org" "open"; EGetProjectColumns 5;
       ECreateProjectCard 71 "Issue" 1001] /\
  In (ELog LvlPlain "Created card: https://api.github.com/projects/columns/cards/900"
        [ArgNum 900])
     (trace (dispatch (Sample.proc []) issues_labeled
               (Sample.ctx (Sample.gh_ok []) "bounty-awaiting-approval" []))).
Proof.
  destruct (create_success_logs_card (Sample.proc [])
              (Sample.ctx (Sample.gh_ok []) "bounty-awaiting-approval" [])
              Sample.config Sample.pbc
              {| project_id := 5; project_name := "Status SOB Swarm" |}
              {| column_id := 71; column_name := "bounty-awaiting-approval" |}
              Sample.a_card)
    as (Hcalls & Hlog & _).
  - apply sample_resolves; reflexivity.
  - vm_compute; reflexivity.
  - reflexivity.
  - split; [exact Hcalls | exact Hlog].
Defined.



(** X10.  For an unassign event that gets through, with DRY_RUN unset: when
    the card listing is rejected, or the card is found and its deletion is
    rejected, the error is logged once with the column id and the issue id
    and the handler is not left: it goes on to the notification and
    completes, and with DRY_RUN_BOUNTY_APPROVAL unset the unassign message
    is sent all the same. *)
Theorem delete_failure_is_logged_and_notified :
  forall proc context config pbc project column err,
    resolves context config pbc project column ->
    flag proc "DRY_RUN" = false ->
    flag proc "DRY_RUN_BOUNTY_APPROVAL" = false ->
    (getProjectCards (github context) (column_id column) = Rejected err \/
     exists cards card,
       getProjectCards (github context) (column_id column) = Resolved cards /\
       find (fun c => String.eqb (card_content_url c)
                        (issue_url (issue (payload context)))) cards = Some card /\
       deleteProjectCard (github context) (card_id card) = Rejected err) ->
    let r := dispatch proc issues_unlabeled context in
    error_logs (trace r)
      = [ELog LvlError ("Couldn't delete project card for the issue: " ++ err)
           [ArgNum (column_id column); ArgNum (issue_id (issue (payload context)))]] /\
    sends (trace r)
      = [ESendMessage (slackClient proc) (slack_notification_room config)
           (message false
              (isOfficialBounty (cfg_bounty_label_name pbc)
                 (issue_labels (issue (payload context))))
              (cfg_awaiting_approval_column_name pbc) (cfg_name pbc)
              (issue_html_url (issue (payload context))))] /\
    completion r = Normal tt.
Proof.
  intros proc context config pbc project column err H Hdry Hflag Hfail r. subst r.
  run_resolver H. rewrite Hdry, Hflag, ?message_truthy. simpl.
  destruct Hfail as [Hcards | (cards & card & Hcards & Hfind & Hdel)].
  - rewrite Hcards. simpl. repeat split; reflexivity.
  - rewrite Hcards. simpl. rewrite Hfind. simpl. rewrite Hdel. simpl.
    repeat split; reflexivity.
Qed.

Lemma delete_failure_is_logged_and_notified_witness :
  error_logs
    (trace (dispatch (Sample.proc []) issues_unlabeled
              (Sample.ctx
                 (Faults.gh (Resolved Sample.boards) (Resolved Sample.columns)
                    (Resolved [Sample.a_card]) (Rejected "HttpError: Forbidden"))
                 "bounty-awaiting-approval" [])))
    = [ELog LvlError "Couldn't delete project card for the issue: HttpError: Forbidden"
         [ArgNum 71; ArgNum 1001]] /\
  sends
    (trace (dispatch (Sample.proc []) issues_unlabeled
              (Sample.ctx
                 (Faults.gh (Resolved Sample.boards) (Resolved Sample.columns)
                    (Resolved [Sample.a_card]) (Rejected "HttpError: Forbidden"))
                 "bounty-awaiting-approval" [])))
    = [ESendMessage (Some Sample.slack) "status-probot"
         (message false false "bounty-awaiting-approval" "Status SOB Swarm"
            "https://github.com/org/proj/issues/42")].
Proof.
  destruct (delete_failure_is_logged_and_notified (Sample.proc [])
              (Sample.ctx
                 (Faults.gh (Resolved Sample.boards) (Resolved Sample.columns)
                    (Resolved [Sample.a_card]) (Rejected "HttpError: Forbidden"))
                 "bounty-awaiting-approval" [])
              Sample.config Sample.pbc
              {| project_id := 5; project_name := "Status SOB Swarm" |}
              {| column_id := 71; column_name := "bounty-awaiting-approval" |}
              "HttpError: Forbidden")
    as (Hlog & Hsend & _).
  - apply sample_resolves; reflexivity.
  - vm_compute; reflexivity.
  - vm_compute; reflexivity.
  - right. exists [Sample.a_card], Sample.a_card. repeat split; reflexivity.
  - split; [exact Hlog | exact Hsend].
Defined.

(** X11.  Whatever the remote side answers, one delivery hands at most one
    message to the chat helper and issues at most one card creation or
    deletion: nothing is retried and nothing is sent twice. *)
Theorem at_most_one_send_and_one_mutation :
  forall proc ev context,
    (length (sends (trace (dispatch proc ev context))) <= 1)%nat /\
    (length (filter is_card_mutation (trace (dispatch proc ev context))) <= 1)%nat.
Proof.
  intros proc ev context. destruct ev; case_run; split; lia.
Qed.

(** X12.  Whatever the remote side answers, a labelled event never lists or
    deletes cards and an unlabelled event never creates one. *)
Theorem assign_never_deletes_unassign_never_creates :
  forall proc context,
    filter is_list_or_delete (trace (dispatch proc issues_labeled context)) = [] /\
    filter is_create (trace (dispatch proc issues_unlabeled context)) = [].
Proof.
  intros proc context. split; case_run; reflexivity.
Qed.

(** X13.  In every run, the configuration is loaded from github-bot.yml, the
    board list is asked for the owner of the repository of the event and
    for open boards only, and a card is only ever created with content type
    Issue for the id of the issue of the event. *)
Theorem calls_are_well_addressed :
  forall proc ev context,
    Forall (well_addressed context) (trace (dispatch proc ev context)).
Proof.
  intros proc ev context. destruct ev; case_run; repeat constructor.
Qed.

Ltac label_matches :=
  match goal with
  | H : String.eqb _ _ = true |- _ => apply String.eqb_eq in H
  end.

(** X14.  A message reaches the chat helper only from a delivery that got
    through the filter and both lookups, with DRY_RUN_BOUNTY_APPROVAL
    unset; it carries the handle the process holds at that time, goes to
    the room of the configuration, and its text is the composed message. *)
Theorem send_only_when_resolved :
  forall proc ev context client room text,
    In (ESendMessage client room text) (trace (dispatch proc ev context)) ->
    flag proc "DRY_RUN_BOUNTY_APPROVAL" = false /\
    client = slackClient proc /\
    exists config pbc project column,
      resolves context config pbc project column /\
      room = slack_notification_room config /\
      text = message (assign_of ev)
               (isOfficialBounty (cfg_bounty_label_name pbc)
                  (issue_labels (issue (payload context))))
               (cfg_awaiting_approval_column_name pbc) (cfg_name pbc)
               (issue_html_url (issue (payload context))).
Proof.
  intros proc ev context client room text Hin. revert Hin.
  destruct ev; case_run; intros Hin; simpl in Hin;
    repeat (destruct Hin as [Hin | Hin]; try discriminate Hin);
    try contradiction;
    injection Hin as <- <- <-; label_matches;
    (split; [reflexivity|]); (split; [reflexivity|]);
    do 4 eexists; (split; [unfold resolves; eauto 10 | split; reflexivity]).
Qed.

Lemma send_only_when_resolved_witness :
  flag (Sample.proc []) "DRY_RUN_BOUNTY_APPROVAL" = false /\
  Some Sample.slack = slackClient (Sample.proc []).
Proof.
  destruct (send_only_when_resolved (Sample.proc []) issues_labeled
              (Sample.ctx (Sample.gh_ok []) "bounty-awaiting-approval" [])
              (Some Sample.slack) "status-probot"
              (message true false "bounty-awaiting-approval" "Status SOB Swarm"
                 "https://github.com/org/proj/issues/42"))
    as (Hflag & Hclient & _).
  - vm_compute. tauto.
  - split; [exact Hflag | exact Hclient].
Defined.

(** X15.  A card call (create, list or delete) is only ever issued by a
    delivery that got through the filter and both lookups, with DRY_RUN
    unset. *)
Theorem card_call_only_when_resolved :
  forall proc ev context e,
    In e (trace (dispatch proc ev context)) ->
    is_card_call e = true ->
    flag proc "DRY_RUN" = false /\
    exists config pbc project column, resolves context config pbc project column.
Proof.
  intros proc ev context e Hin Hcall. revert Hin.
  destruct ev; case_run; intros Hin; simpl in Hin;
    repeat (destruct Hin as [Hin | Hin]; [subst e; try discriminate Hcall|]);
    try contradiction;
    label_matches; (split; [reflexivity|]);
    do 4 eexists; unfold resolves; eauto 10.
Qed.

Lemma card_call_only_when_resolved_witness :
  flag (Sample.proc []) "DRY_RUN" = false /\
  exists config pbc project column,
    resolves (Sample.ctx (Sample.gh_ok []) "bounty-awaiting-approval" [])
      config pbc project column.
Proof.
  apply (card_call_only_when_resolved (Sample.proc []) issues_labeled
           (Sample.ctx (Sample.gh_ok []) "bounty-awaiting-approval" [])
           (ECreateProjectCard 71 "Issue" 1001)).
  - vm_compute. tauto.
  - reflexivity.
Defined.

(** X16.  A run reads the environment through the truthiness of DRY_RUN and
    DRY_RUN_BOUNTY_APPROVAL only: two processes that hold the same chat
    handle and agree on the truthiness of both variables handle every
    delivery alike.  A variable set to the empty string counts as unset. *)
Theorem run_depends_on_flags_only :
  forall proc1 proc2 ev context,
    slackClient proc1 = slackClient proc2 ->
    flag proc1 "DRY_RUN" = flag proc2 "DRY_RUN" ->
    flag proc1 "DRY_RUN_BOUNTY_APPROVAL" = flag proc2 "DRY_RUN_BOUNTY_APPROVAL" ->
    dispatch proc1 ev context = dispatch proc2 ev context.
Proof.
  intros proc1 proc2 ev context Hclient Hdry Happroval.
  unfold dispatch, on_issues_labeled, on_issues_unlabeled,
    assignIssueToBountyAwaitingForApproval, flag in *.
  rewrite Hclient, Hdry, Happroval. reflexivity.
Qed.

Lemma run_depends_on_flags_only_witness :
  dispatch (Sample.proc [("DRY_RUN", "")]) issues_labeled
    (Sample.ctx (Sample.gh_ok []) "bounty-awaiting-approval" [])
  = dispatch (Sample.proc [("OTHER", "1")]) issues_labeled
      (Sample.ctx (Sample.gh_ok []) "bounty-awaiting-approval" []).
Proof.
  apply run_depends_on_flags_only.
  - reflexivity.
  - vm_compute; reflexivity.
  - vm_compute; reflexivity.
Defined.

Lemma process_env_connected proc slack name :
  process_env (fst (slack_connected proc slack)) name = process_env proc name.
Proof. reflexivity. Qed.

Lemma slackClient_connected proc slack :
  slackClient (fst (slack_connected proc slack)) = Some slack.
Proof. reflexivity. Qed.

(** X17.  The connection callback changes nothing but the chat handle: it
    logs one trace entry, leaves the environment as it is, and a delivery
    handled afterwards completes as it would have before and performs the
    same effects in the same order, each send now carrying the handle of
    the connection. *)
Theorem connection_only_changes_handle :
  forall proc slack ev context,
    snd (slack_connected proc slack)
      = [ELog LvlTrace "Connected, assigned slackClient" []] /\
    env (fst (slack_connected proc slack)) = env proc /\
    completion (dispatch (fst (slack_connected proc slack)) ev context)
      = completion (dispatch proc ev context) /\
    trace (dispatch (fst (slack_connected proc slack)) ev context)
      = map (set_client (Some slack)) (trace (dispatch proc ev context)).
Proof.
  intros proc slack ev context.
  split; [reflexivity|]. split; [reflexivity|].
  unfold dispatch, on_issues_labeled, on_issues_unlabeled,
    assignIssueToBountyAwaitingForApproval.
  rewrite !process_env_connected, slackClient_connected.
  destruct ev; case_run; split; reflexivity.
Qed.

(** X18.  Whatever the remote side answers, the project-board calls of one
    delivery come in the order of the lookups: the board list first, then
    the columns of one board, then either one card creation, or one card
    listing followed by at most one deletion; no call is made out of that
    order and none is repeated. *)
Theorem board_calls_follow_protocol :
  forall proc ev context,
    follows_protocol (board_calls (trace (dispatch proc ev context))) = true.
Proof.
  intros proc ev context. destruct ev; case_run; reflexivity.
Qed.
